(** * Fuzzy Concepts Explorer ([set.py]): the arithmetic behind the page

    [set.py] is a Streamlit script.  Four small computations sit between its
    widgets and its output; the specification names them [score],
    [validate], [partition] and [derive]:

    - the membership of a height in the fuzzy set of tall people
      (lines 50-57),
    - the golden-rule check of the three-vertex fuzzy graph (lines 85-91),
    - the threshold loop over the maximum spanning tree of the car example
      (lines 230-242),
    - the hesitation and refusal degrees of the voting analogy
      (lines 171-173 and 183-187).

    Numbers.  The script computes with Python floats.  The specification
    speaks of reals, so the laws below are stated over exact rationals [Q]
    (every finite float is a rational, and [Q] computes).  What the
    interpreter itself returns on concrete inputs is IEEE binary64
    arithmetic: module [Binary64] repeats the arithmetic expressions
    over Rocq's primitive floats, which are binary64 with round to nearest
    even, as Python's are.

    Text.  The f-strings of the page (two-decimal renderings of numbers) are
    kept as the values they are built from. *)

From Stdlib Require Import QArith Lqa ZArith List Permutation.
From Stdlib Require Import Floats.
From stdpp Require Import gmap strings.
Import ListNotations.

Local Open Scope Q_scope.

(** ** Outcome of running a block of the script *)

(** The two errors the specification lists for the computations. *)
Inductive error : Type :=
| InvalidCompositionError
| MissingVertexError.

(** A block either runs to its end with a value or raises. *)
Inductive outcome (A : Type) : Type :=
| Returned (a : A)
| Raised (e : error).

Arguments Returned {A} a.
Arguments Raised {A} e.

(** ** 1. Membership scorer (lines 47-57) *)

Module Scorer.

(** [if height < 160: ... elif height < 180: ... elif height < 190: ...
    else: ...], the value of [membership]. *)
Definition score (height : Q) : Q :=
  if Qlt_le_dec height 160 then 0
  else if Qlt_le_dec height 180 then (height - 160) / 20 * 0.8
  else if Qlt_le_dec height 190 then 0.8 + ((height - 180) / 10 * 0.2)
  else 1.

(** The piecewise definition of section 4.1 of the specification, as a
    relation between an input [x] and a degree [y]. *)
Definition piecewise_reference (x y : Q) : Prop :=
  (x < 160 -> y == 0) /\
  (160 <= x < 180 -> y == ((x - 160) / 20) * 0.8) /\
  (180 <= x < 190 -> y == 0.8 + ((x - 180) / 10) * 0.2) /\
  (190 <= x -> y == 1).

End Scorer.

(** ** 2. Fuzzy graph validator (lines 77-91 and 100-105) *)

Module Validator.

(** The six slider values of the demo. *)
Record sliders : Type := Sliders {
  sigma_a : Q; sigma_b : Q; sigma_c : Q;
  mu_ab : Q; mu_bc : Q; mu_ac : Q
}.

(** Python's two-argument [min]: the first argument unless the second is
    strictly smaller. *)
Definition min (a b : Q) : Q := if Qlt_le_dec b a then b else a.

(** What a violation message is built from: the edge it names, the edge's
    strength and the bound [min] of the endpoints. *)
Record violation : Type := Violation {
  v_edge : string; v_mu : Q; v_bound : Q
}.

(** One [if mu > min(..): violations.append(..)]. *)
Definition check (name : string) (mu bound : Q)
    (violations : list violation) : list violation :=
  if Qlt_le_dec bound mu then violations ++ [Violation name mu bound]
  else violations.

(** Lines 86-91: the three checks, in the order of the script, on a list
    [violations]. *)
Definition golden_rule (s : sliders) (violations : list violation)
    : list violation :=
  let violations :=
    check "A-B" (mu_ab s) (min (sigma_a s) (sigma_b s)) violations in
  let violations :=
    check "B-C" (mu_bc s) (min (sigma_b s) (sigma_c s)) violations in
  let violations :=
    check "A-C" (mu_ac s) (min (sigma_a s) (sigma_c s)) violations in
  violations.

(** Lines 85-91: [violations = []], then the three checks. *)
Definition validate (s : sliders) : list violation := golden_rule s [].

(** The graph the demo draws.  Lines 100-102 declare the vertices
    ['A'], ['B'], ['C'] with their existence values; lines 103-105 add
    the edges in the order A-B, B-C, A-C. *)
Inductive vertex : Type := A | B | C.

Definition sigma (s : sliders) (v : vertex) : Q :=
  match v with
  | A => sigma_a s
  | B => sigma_b s
  | C => sigma_c s
  end.

Record edge : Type := Edge { e_u : vertex; e_v : vertex; e_mu : Q }.

Definition edges (s : sliders) : list edge :=
  [Edge A B (mu_ab s); Edge B C (mu_bc s); Edge A C (mu_ac s)].

Definition vertex_name (v : vertex) : string :=
  match v with A => "A" | B => "B" | C => "C" end.

Definition edge_name (e : edge) : string :=
  (vertex_name (e_u e) ++ "-" ++ vertex_name (e_v e))%string.

(** The bound of the golden rule for an edge and the test [mu > bound]. *)
Definition bound (s : sliders) (e : edge) : Q :=
  min (sigma s (e_u e)) (sigma s (e_v e)).

Definition violates (s : sliders) (e : edge) : bool :=
  if Qlt_le_dec (bound s e) (e_mu e) then true else false.

Definition violation_of (s : sliders) (e : edge) : violation :=
  Violation (edge_name e) (e_mu e) (bound s e).

End Validator.

(** ** 3. Threshold partitioner (lines 221-244) *)

Module Partitioner.

(** An entry of the [edges] dictionary: key [(u, v)] and weight. *)
Record wedge : Type := WEdge { w_u : string; w_v : string; weight : Q }.

(** The dictionary of lines 230-234, in insertion order (the order in
    which [edges.items()] yields it). *)
Definition edges : list wedge :=
  [WEdge "G9" "G4" 0.87; WEdge "G7" "G2" 0.83; WEdge "G6" "G1" 0.82;
   WEdge "G7" "G3" 0.81; WEdge "G7" "G8" 0.74; WEdge "G10" "G5" 0.76;
   WEdge "G3" "G9" 0.64; WEdge "G8" "G10" 0.69; WEdge "G1" "G4" 0.64]%string.

(** A statement in the body of a [graphviz.Graph]: an edge with its
    label (the weight the label prints), a node, or an attribute statement
    (styling for the nodes or edges that follow). *)
Inductive stmt : Type :=
| edge_stmt (u v : string) (label : Q)
| node_stmt (u : string)
| attr_stmt (kw : string) (attrs : list (string * string)).

(** [graphviz.Graph]: the statements added so far, oldest first. *)
Record Graph : Type := { body : list stmt }.

Definition new_graph : Graph := {| body := [] |}.

Definition edge (g : Graph) (u v : string) (label : Q) : Graph :=
  {| body := body g ++ [edge_stmt u v label] |}.

Definition node (g : Graph) (u : string) : Graph :=
  {| body := body g ++ [node_stmt u] |}.

Definition attr (g : Graph) (kw : string) (attrs : list (string * string))
    : Graph :=
  {| body := body g ++ [attr_stmt kw attrs] |}.

(** Lines 227-228: the graph the loop starts on, a new graph with the
    styling of its nodes. *)
Definition styled_graph : Graph :=
  attr new_graph "node"
    [("shape", "circle"); ("style", "filled");
     ("fillcolor", "lightcoral")]%string.

(** State of the loop: the graph, and the entries that took the [else]
    branch (the script draws only their endpoints). *)
Record loop_state : Type := { mst_dot : Graph; cut_so_far : list wedge }.

(** The body of [for (u, v), weight in edges.items()]. *)
Definition loop_body (threshold : Q) (st : loop_state) (e : wedge)
    : loop_state :=
  if Qle_bool threshold (weight e) then
    {| mst_dot := edge (mst_dot st) (w_u e) (w_v e) (weight e);
       cut_so_far := cut_so_far st |}
  else
    {| mst_dot := node (node (mst_dot st) (w_u e)) (w_v e);
       cut_so_far := cut_so_far st ++ [e] |}.

Definition mst_loop (threshold : Q) (es : list wedge) (st : loop_state)
    : loop_state :=
  fold_left (loop_body threshold) es st.

(** What the drawn graph shows: its edges ... *)
Definition drawn_edges (g : Graph) : list wedge :=
  flat_map (fun s => match s with
                     | edge_stmt u v w => [WEdge u v w]
                     | node_stmt _ => []
                     | attr_stmt _ _ => []
                     end) (body g).

(** ... and its nodes: every identifier that a node statement or an edge
    statement mentions (an edge statement creates its endpoints; an
    attribute statement creates none). *)
Definition stmt_nodes (s : stmt) : gset string :=
  match s with
  | edge_stmt u v _ => {[ u; v ]}
  | node_stmt u => {[ u ]}
  | attr_stmt _ _ => ∅
  end.

Definition graph_nodes (g : Graph) : gset string :=
  foldr (fun s acc => stmt_nodes s ∪ acc) ∅ (body g).

Record partitioned : Type := Partitioned {
  kept : list wedge; cut : list wedge; nodes : gset string
}.

(** Lines 227-228 and 236-242 on an edge list [es]: the styled new graph,
    the loop, and the three things the specification reads off the
    result. *)
Definition partition (es : list wedge) (threshold : Q) : partitioned :=
  let st := mst_loop threshold es
              {| mst_dot := styled_graph; cut_so_far := [] |} in
  Partitioned (drawn_edges (mst_dot st)) (cut_so_far st)
              (graph_nodes (mst_dot st)).

(** The endpoints of a list of entries. *)
Definition endpoints (es : list wedge) : gset string :=
  foldr (fun e acc => {[ w_u e; w_v e ]} ∪ acc) ∅ es.

(** The two outcomes of the test [weight >= threshold], and the
    statements one entry adds to the graph. *)
Definition above (threshold : Q) (e : wedge) : bool :=
  Qle_bool threshold (weight e).

Definition below (threshold : Q) (e : wedge) : bool :=
  negb (Qle_bool threshold (weight e)).

Definition emitted (threshold : Q) (e : wedge) : list stmt :=
  if Qle_bool threshold (weight e)
  then [edge_stmt (w_u e) (w_v e) (weight e)]
  else [node_stmt (w_u e); node_stmt (w_v e)].

End Partitioner.

(** ** 4. Composition ratio calculator (lines 170-173 and 182-187) *)

Module Composition.

(** Upper bounds handed to the dependent sliders. *)
Definition oppose_max (support : Q) : Q := 1 - support.
Definition abstain_max (support oppose : Q) : Q := 1 - support - oppose.

(** Line 173. *)
Definition hesitation (support oppose : Q) : Q := 1 - support - oppose.

(** Line 187: the value of [refusal]. *)
Definition derive (support opposition abstention : Q) : Q :=
  1 - support - opposition - abstention.

(** Line 187 contains no test and no [raise]. *)
Definition run_derive (support opposition abstention : Q) : outcome Q :=
  Returned (derive support opposition abstention).

(** The condition that a value [v] lies within the bounds [[lo, hi]]
    passed to a slider. *)
Definition slider_value (lo hi v : Q) : Prop := lo <= v <= hi.

(** A call [st.slider(label, min_value, max_value, value)]: the two bounds
    and the initial value, which the widget holds until it is moved. *)
Record slider_call : Type := {
  min_value : Q; max_value : Q; value : Q
}.

(** Lines 172 and 184: the opposition sliders. *)
Definition oppose_slider (support : Q) : slider_call :=
  {| min_value := 0; max_value := oppose_max support; value := 0.2 |}.

(** Line 186: the abstention slider. *)
Definition abstain_slider (support oppose : Q) : slider_call :=
  {| min_value := 0; max_value := abstain_max support oppose;
     value := 0.1 |}.

(** The initial value of a call lies within the call's own bounds. *)
Definition initial_value_in_range (c : slider_call) : Prop :=
  slider_value (min_value c) (max_value c) (value c).

End Composition.

(** ** The same arithmetic as the interpreter evaluates it *)

Module Binary64.

#[local] Set Warnings "-inexact-float".

(** The slider of line 47 has integer bounds, so [height] is an [int];
    [height - 160] is exact and converted to a float by the division. *)
Definition of_int (z : Z) : float := PrimFloat.of_uint63 (Uint63.of_Z z).

Definition score (height : Z) : float :=
  if (height <? 160)%Z then 0%float
  else if (height <? 180)%Z then
    (of_int (height - 160) / 20 * 0.8)%float
  else if (height <? 190)%Z then
    (0.8 + (of_int (height - 180) / 10 * 0.2))%float
  else 1%float.

(** Line 187, subtraction by subtraction from the left. *)
Definition derive (support opposition abstention : float) : float :=
  (1 - support - opposition - abstention)%float.

(** Lines 173 and 185. *)
Definition hesitation (support oppose : float) : float :=
  (1 - support - oppose)%float.

Definition abstain_max (support oppose : float) : float :=
  (1 - support - oppose)%float.

(** The heights the slider of line 47 offers: 140, 141, ..., 220. *)
Definition slider_heights : list Z := map (fun k => 140 + Z.of_nat k)%Z (seq 0 81).

End Binary64.

(** ** The exact value of a float *)

Module Exact.

(** A finite binary64 value [(-1)^s * m * 2^e] as a rational; infinities
    and NaN have none. *)
Definition of_spec (f : spec_float) : option Q :=
  match f with
  | S754_zero _ => Some 0
  | S754_finite s m e =>
      Some ((if s then -1 else 1) * inject_Z (Z.pos m) * Qpower 2 e)
  | S754_infinity _ => None
  | S754_nan => None
  end.

Definition to_Q (x : float) : option Q := of_spec (Prim2SF x).

(** [x] is finite and within [eps] of the rational [q]. *)
Definition within (eps : Q) (x : float) (q : Q) : bool :=
  match to_Q x with
  | Some v => Qle_bool (q - eps) v && Qle_bool v (q + eps)
  | None => false
  end.

(** [y] exceeds [x] by at most [eps], both finite. *)
Definition rise_at_most (eps : Q) (x y : float) : bool :=
  match to_Q x, to_Q y with
  | Some a, Some b => Qle_bool (b - a) eps
  | _, _ => false
  end.

End Exact.

(** ** What a run of the script puts on the page

    Only the elements that show a computed value are kept; headers and
    prose, which no widget influences, are left out.  The body of every
    [with tab:] block runs at each run, whichever tab is open. *)

Module Script.

(** The six sliders of the graph demo and the other widgets. *)
Record widgets : Type := {
  height : Q;
  graph : Validator.sliders;
  support_fs : Q;
  support_ifs : Q; oppose_ifs : Q;
  support_pfs : Q; oppose_pfs : Q; abstain_pfs : Q;
  threshold : Q
}.

(** The graph of lines 97-105: nodes with their existence values and edges
    with their strengths, in the order of the calls. *)
Record drawing : Type := {
  d_nodes : list (string * Q);
  d_edges : list (string * string * Q)
}.

Definition dot (s : Validator.sliders) : drawing :=
  {| d_nodes := [("A", Validator.sigma_a s); ("B", Validator.sigma_b s);
                 ("C", Validator.sigma_c s)];
     d_edges := [("A", "B", Validator.mu_ab s); ("B", "C", Validator.mu_bc s);
                 ("A", "C", Validator.mu_ac s)] |}%string.

Inductive element : Type :=
| write_membership (height membership : Q)
| progress (value : Q)
| fuzzy_chart (g : drawing)
| warning (v : Validator.violation)
| success_valid
| installation_instructions
| write_degree (name : string) (value : Q)
| info_leftover (name : string) (value : Q)
| write_threshold (threshold : Q)
| mst_chart (g : Partitioner.Graph).

(** Lines 93-113, the right-hand column of the graph demo. *)
Definition graph_column (GRAPHVIZ_INSTALLED : bool) (s : Validator.sliders)
    : list element :=
  let violations := Validator.validate s in
  if GRAPHVIZ_INSTALLED then
    fuzzy_chart (dot s) ::
    match violations with
    | [] => [success_valid]
    | _ :: _ => map warning violations
    end
  else [installation_instructions].

(** [render_fuzzy_graph_theory], lines 47-113. *)
Definition render_fuzzy_graph_theory (GRAPHVIZ_INSTALLED : bool)
    (w : widgets) : list element :=
  let membership := Scorer.score (height w) in
  [write_membership (height w) membership; progress membership] ++
  graph_column GRAPHVIZ_INSTALLED (graph w).

(** Lines 221-246, the clustering demo. *)
Definition clustering_demo (GRAPHVIZ_INSTALLED : bool) (threshold : Q)
    : list element :=
  write_threshold threshold ::
  if GRAPHVIZ_INSTALLED then
    [mst_chart
       (Partitioner.mst_dot
          (Partitioner.mst_loop threshold Partitioner.edges
             {| Partitioner.mst_dot := Partitioner.styled_graph;
                Partitioner.cut_so_far := [] |}))]
  else [installation_instructions].

(** [render_research_paper_summary], lines 163-246. *)
Definition render_research_paper_summary (GRAPHVIZ_INSTALLED : bool)
    (w : widgets) : list element :=
  [write_degree "support" (support_fs w)] ++
  [write_degree "Support (Yes)" (support_ifs w);
   write_degree "Opposition (No)" (oppose_ifs w);
   info_leftover "Hesitation"
     (Composition.hesitation (support_ifs w) (oppose_ifs w))] ++
  [write_degree "Support (Yes)" (support_pfs w);
   write_degree "Opposition (No)" (oppose_pfs w);
   write_degree "Abstention (Neutral)" (abstain_pfs w);
   info_leftover "Refusal"
     (Composition.derive (support_pfs w) (oppose_pfs w) (abstain_pfs w))] ++
  clustering_demo GRAPHVIZ_INSTALLED (threshold w).

(** Lines 264-269: the sidebar radio picks the section. *)
Definition main (selection : string) (GRAPHVIZ_INSTALLED : bool)
    (w : widgets) : list element :=
  if String.eqb selection "Fuzzy Graph Theory"
  then render_fuzzy_graph_theory GRAPHVIZ_INSTALLED w
  else render_research_paper_summary GRAPHVIZ_INSTALLED w.

Definition is_chart (e : element) : bool :=
  match e with
  | fuzzy_chart _ => true
  | mst_chart _ => true
  | _ => false
  end.

Definition is_instructions (e : element) : bool :=
  match e with installation_instructions => true | _ => false end.

Definition is_warning (e : element) : bool :=
  match e with warning _ => true | _ => false end.

Definition is_success (e : element) : bool :=
  match e with success_valid => true | _ => false end.

End Script.

(** * Properties *)

#[local] Set Warnings "-inexact-float".

(** Closed comparisons between rational constants. *)
Ltac qconst := vm_compute; first [reflexivity | discriminate].

(** ** Membership scorer *)

Section ScorerFacts.

Import Scorer.

(** The two ramps are affine in the height. *)
Lemma ramp_low (x : Q) : (x - 160) / 20 * 0.8 == (1 # 25) * x - (32 # 5).
Proof. field. Qed.

Lemma ramp_high (x : Q) :
  0.8 + ((x - 180) / 10 * 0.2) == (1 # 50) * x - (14 # 5).
Proof. field. Qed.

Lemma score_below (x : Q) : x < 160 -> score x = 0.
Proof.
  intros Hx. unfold score.
  destruct (Qlt_le_dec x 160) as [_ | Hge]; [reflexivity | lra].
Qed.

Lemma score_above (x : Q) : 190 <= x -> score x = 1.
Proof.
  intros Hx. unfold score.
  destruct (Qlt_le_dec x 160); [lra |].
  destruct (Qlt_le_dec x 180); [lra |].
  destruct (Qlt_le_dec x 190); [lra | reflexivity].
Qed.

Lemma score_low_ramp (x : Q) :
  160 <= x < 180 -> score x = (x - 160) / 20 * 0.8.
Proof.
  intros [Hlo Hhi]. unfold score.
  destruct (Qlt_le_dec x 160); [lra |].
  destruct (Qlt_le_dec x 180); [reflexivity | lra].
Qed.

Lemma score_high_ramp (x : Q) :
  180 <= x < 190 -> score x = 0.8 + ((x - 180) / 10 * 0.2).
Proof.
  intros [Hlo Hhi]. unfold score.
  destruct (Qlt_le_dec x 160); [lra |].
  destruct (Qlt_le_dec x 180); [lra |].
  destruct (Qlt_le_dec x 190); [reflexivity | lra].
Qed.

(** Every height falls in one of the four segments. *)
Lemma segment_of (x : Q) :
  x < 160 \/ 160 <= x < 180 \/ 180 <= x < 190 \/ 190 <= x.
Proof.
  destruct (Qlt_le_dec x 160); [now left | right].
  destruct (Qlt_le_dec x 180); [now left | right].
  destruct (Qlt_le_dec x 190); [now left | now right].
Qed.

Lemma score_range (x : Q) : 0 <= score x <= 1.
Proof.
  destruct (segment_of x) as [H | [H | [H | H]]].
  - rewrite (score_below x H). lra.
  - rewrite (score_low_ramp x H), ramp_low. lra.
  - rewrite (score_high_ramp x H), ramp_high. lra.
  - rewrite (score_above x H). lra.
Qed.

Lemma score_monotone (x y : Q) : x <= y -> score x <= score y.
Proof.
  intros Hxy.
  destruct (segment_of x) as [Hx | [Hx | [Hx | Hx]]].
  - rewrite (score_below x Hx). apply score_range.
  - rewrite (score_low_ramp x Hx), ramp_low.
    destruct (segment_of y) as [Hy | [Hy | [Hy | Hy]]].
    + lra.
    + rewrite (score_low_ramp y Hy), ramp_low. lra.
    + rewrite (score_high_ramp y Hy), ramp_high. lra.
    + rewrite (score_above y Hy). lra.
  - rewrite (score_high_ramp x Hx), ramp_high.
    destruct (segment_of y) as [Hy | [Hy | [Hy | Hy]]].
    + lra.
    + lra.
    + rewrite (score_high_ramp y Hy), ramp_high. lra.
    + rewrite (score_above y Hy). lra.
  - rewrite (score_above y) by lra. apply score_range.
Qed.

End ScorerFacts.

(** C3.  For every height [x], [score x] is the degree that the piecewise
    definition of the specification assigns to [x]: 0 below 160,
    [((x-160)/20)*0.8] on [160 <= x < 180], [0.8 + ((x-180)/10)*0.2] on
    [180 <= x < 190] and 1 from 190 on.  The three boundary points are
    exact, [score 160 = 0], [score 180 = 0.8], [score 190 = 1], over the
    rationals and in binary64 arithmetic alike. *)
Theorem score_matches_reference (x : Q) :
  Scorer.piecewise_reference x (Scorer.score x) /\
  (Scorer.score 160 == 0 /\ Scorer.score 180 == 0.8 /\
   Scorer.score 190 == 1) /\
  (Binary64.score 160 = 0%float /\ Binary64.score 180 = 0.8%float /\
   Binary64.score 190 = 1%float).
Proof.
  split; [| split].
  - unfold Scorer.piecewise_reference. repeat split.
    + intros H. now rewrite (score_below x H).
    + intros H. now rewrite (score_low_ramp x H).
    + intros H. now rewrite (score_high_ramp x H).
    + intros H. now rewrite (score_above x H).
  - repeat split; qconst.
  - repeat split; reflexivity.
Qed.

(** The reference at a height on the lower ramp: 170 cm has degree 0.4. *)
Lemma score_matches_reference_witness :
  160 <= 170 < 180 /\ Scorer.score 170 == ((170 - 160) / 20) * 0.8.
Proof.
  assert (H : 160 <= 170 < 180) by (split; qconst).
  split; [exact H |].
  exact (proj1 (proj2 (proj1 (score_matches_reference 170))) H).
Defined.

(** C7.  [score] never decreases, its values lie in [[0, 1]], it is 0
    below 160 and 1 from 190 on. *)
Theorem score_monotone_bounded (x y : Q) :
  (x <= y -> Scorer.score x <= Scorer.score y) /\
  0 <= Scorer.score x <= 1 /\
  (x < 160 -> Scorer.score x == 0) /\
  (190 <= x -> Scorer.score x == 1).
Proof.
  split; [apply score_monotone |].
  split; [apply score_range |].
  split; intros H.
  - now rewrite (score_below x H).
  - now rewrite (score_above x H).
Qed.

Lemma score_monotone_bounded_witness :
  175 <= 185 /\ Scorer.score 175 <= Scorer.score 185.
Proof.
  assert (H : 175 <= 185) by qconst.
  split; [exact H |].
  exact (proj1 (score_monotone_bounded 175 185) H).
Defined.

(** On the heights the slider offers, the binary64 values behave the same
    way: each lies in [[0, 1]] and is at most the value one centimetre
    higher. *)
Lemma binary64_score_on_slider :
  forallb (fun h =>
    PrimFloat.leb 0 (Binary64.score h) &&
    PrimFloat.leb (Binary64.score h) 1 &&
    PrimFloat.leb (Binary64.score h) (Binary64.score (h + 1)))
    Binary64.slider_heights = true.
Proof. vm_compute. reflexivity. Qed.

(** ** Fuzzy graph validator *)

Section ValidatorFacts.

Import Validator.

Lemma check_app (name : string) (mu b : Q) (vs : list violation) :
  check name mu b vs = vs ++ check name mu b [].
Proof.
  unfold check. destruct (Qlt_le_dec b mu); [reflexivity |].
  now rewrite app_nil_r.
Qed.

(** The three checks only append: what the list held stays in front. *)
Lemma golden_rule_app (s : sliders) (vs : list violation) :
  golden_rule s vs = vs ++ validate s.
Proof.
  unfold validate, golden_rule.
  rewrite (check_app "A-C"), (check_app "B-C"), (check_app "A-B").
  rewrite (check_app "A-C" _ _ (check _ _ _ _)).
  rewrite (check_app "B-C" _ _ (check _ _ _ _)).
  simpl. now rewrite <- !app_assoc.
Qed.

Lemma violates_iff (s : sliders) (e : edge) :
  violates s e = true <-> bound s e < e_mu e.
Proof.
  unfold violates. destruct (Qlt_le_dec (bound s e) (e_mu e)).
  - tauto.
  - split; [discriminate | lra].
Qed.

(** The violations are those of the edges that break the rule, in the
    order of the edge sequence. *)
Lemma validate_filter (s : sliders) :
  validate s = map (violation_of s) (List.filter (violates s) (edges s)).
Proof.
  unfold validate, golden_rule, check, edges, violates, bound,
    violation_of, edge_name.
  simpl.
  destruct (Qlt_le_dec (min (sigma_a s) (sigma_b s)) (mu_ab s));
    destruct (Qlt_le_dec (min (sigma_b s) (sigma_c s)) (mu_bc s));
    destruct (Qlt_le_dec (min (sigma_a s) (sigma_c s)) (mu_ac s));
    reflexivity.
Qed.

End ValidatorFacts.

(** C4.  When every edge of the graph has [mu <= min] of the existence values
    of its endpoints, [validate] returns the empty list; in general it
    returns the violations of the rule-breaking edges in the order of the
    edge sequence A-B, B-C, A-C. *)
Theorem validate_valid_and_ordered (s : Validator.sliders) :
  (Forall (fun e => Validator.e_mu e <= Validator.bound s e)
          (Validator.edges s) ->
   Validator.validate s = []) /\
  Validator.validate s =
    map (Validator.violation_of s)
        (List.filter (Validator.violates s) (Validator.edges s)).
Proof.
  split; [| apply validate_filter].
  intros Hvalid. rewrite validate_filter.
  induction Hvalid as [| e es He _ IH]; [reflexivity |].
  simpl. destruct (Validator.violates s e) eqn:Hv; [| exact IH].
  apply violates_iff in Hv. lra.
Qed.

(** The sliders as the page opens: a valid graph. *)
Lemma validate_valid_and_ordered_witness :
  Forall (fun e => Validator.e_mu e <=
                   Validator.bound (Validator.Sliders 0.9 0.8 1 0.7 0.6 0.5) e)
         (Validator.edges (Validator.Sliders 0.9 0.8 1 0.7 0.6 0.5)) /\
  Validator.validate (Validator.Sliders 0.9 0.8 1 0.7 0.6 0.5) = [].
Proof.
  assert (H : Forall (fun e => Validator.e_mu e <=
                   Validator.bound (Validator.Sliders 0.9 0.8 1 0.7 0.6 0.5) e)
         (Validator.edges (Validator.Sliders 0.9 0.8 1 0.7 0.6 0.5))).
  { repeat constructor; qconst. }
  split; [exact H |].
  exact (proj1 (validate_valid_and_ordered _) H).
Defined.

(** The example of the specification: with A-B raised to 0.95 the only
    violation is A-B, with bound [min 0.9 0.8 = 0.8]. *)
Example validate_single_violation :
  Validator.validate (Validator.Sliders 0.9 0.8 1 0.95 0.6 0.5) =
  [Validator.Violation "A-B" 0.95 0.8].
Proof. reflexivity. Qed.

(** Two violations come out in the order of the edges, here B-C before
    A-C. *)
Example validate_two_violations :
  map Validator.v_edge
      (Validator.validate (Validator.Sliders 0.9 0.5 0.4 0.3 0.6 0.5)) =
  ["B-C"; "A-C"]%string.
Proof. reflexivity. Qed.

(** ** Threshold partitioner *)

Section PartitionerFacts.

Import Partitioner.

Variable threshold : Q.

Lemma mst_loop_body (es : list wedge) (st : loop_state) :
  body (mst_dot (mst_loop threshold es st)) =
    body (mst_dot st) ++ flat_map (emitted threshold) es.
Proof.
  unfold mst_loop. revert st.
  induction es as [| e es IH]; intros st; simpl.
  - now rewrite app_nil_r.
  - rewrite IH.
    unfold loop_body, emitted.
    destruct (Qle_bool threshold (weight e)); simpl;
      now rewrite <- ?app_assoc.
Qed.

Lemma mst_loop_cut (es : list wedge) (st : loop_state) :
  cut_so_far (mst_loop threshold es st) =
    cut_so_far st ++ List.filter (below threshold) es.
Proof.
  unfold mst_loop. revert st.
  induction es as [| e es IH]; intros st; simpl.
  - now rewrite app_nil_r.
  - rewrite IH.
    unfold loop_body, below.
    destruct (Qle_bool threshold (weight e)); simpl;
      now rewrite <- ?app_assoc.
Qed.

Lemma drawn_emitted (es : list wedge) :
  drawn_edges {| body := flat_map (emitted threshold) es |} = List.filter (above threshold) es.
Proof.
  unfold drawn_edges. simpl.
  induction es as [| [u v w] es IH]; [reflexivity |].
  simpl. rewrite flat_map_app, IH.
  unfold emitted, above. simpl.
  destruct (Qle_bool threshold w); reflexivity.
Qed.

Lemma graph_nodes_emitted (es : list wedge) :
  graph_nodes {| body := flat_map (emitted threshold) es |} = endpoints es.
Proof.
  unfold graph_nodes, endpoints. simpl.
  induction es as [| e es IH]; [reflexivity |].
  simpl. rewrite foldr_app, <- IH.
  unfold emitted. destruct (Qle_bool threshold (weight e)); simpl.
  - reflexivity.
  - now rewrite (assoc_L (∪)).
Qed.

Lemma kept_filter (es : list wedge) :
  kept (partition es threshold) = List.filter (above threshold) es.
Proof.
  unfold partition. simpl.
  rewrite <- drawn_emitted. unfold drawn_edges.
  rewrite mst_loop_body. reflexivity.
Qed.

Lemma cut_filter (es : list wedge) :
  cut (partition es threshold) = List.filter (below threshold) es.
Proof. unfold partition. simpl. now rewrite mst_loop_cut. Qed.

Lemma nodes_endpoints (es : list wedge) :
  nodes (partition es threshold) = endpoints es.
Proof.
  unfold partition. simpl.
  rewrite <- graph_nodes_emitted. unfold graph_nodes.
  rewrite mst_loop_body. simpl. apply (left_id_L ∅ (∪)).
Qed.

Lemma above_iff (e : wedge) : above threshold e = true <-> threshold <= weight e.
Proof. apply Qle_bool_iff. Qed.

Lemma below_iff (e : wedge) : below threshold e = true <-> weight e < threshold.
Proof.
  unfold below. destruct (Qle_bool threshold (weight e)) eqn:E; simpl.
  - apply Qle_bool_iff in E. split; [discriminate | lra].
  - split; [intros _ | reflexivity].
    destruct (Qlt_le_dec (weight e) threshold) as [Hlt | Hle]; [exact Hlt |].
    apply Qle_bool_iff in Hle. congruence.
Qed.

(** Splitting a list by a test and its negation loses and adds nothing. *)
Lemma split_permutation (es : list wedge) :
  Permutation (List.filter (above threshold) es ++ List.filter (below threshold) es) es.
Proof.
  induction es as [| e es IH]; [constructor |].
  simpl. unfold below at 1, above at 1.
  destruct (Qle_bool threshold (weight e)); simpl.
  - now constructor.
  - symmetry. apply Permutation_cons_app. now symmetry.
Qed.

Lemma endpoints_in (es : list wedge) (e : wedge) :
  In e es -> w_u e ∈ endpoints es /\ w_v e ∈ endpoints es.
Proof.
  unfold endpoints.
  induction es as [| e' es IH]; simpl; [tauto |].
  intros [-> | Hin].
  - split; apply elem_of_union_l.
    + apply elem_of_union_l. now apply elem_of_singleton.
    + apply elem_of_union_r. now apply elem_of_singleton.
  - destruct (IH Hin). split; now apply elem_of_union_r.
Qed.

Lemma endpoints_split (es : list wedge) :
  endpoints (List.filter (above threshold) es) ∪
  endpoints (List.filter (below threshold) es) = endpoints es.
Proof.
  unfold endpoints.
  induction es as [| e es IH]; simpl; [apply (left_id_L ∅ (∪)) |].
  unfold below at 1, above at 1.
  destruct (Qle_bool threshold (weight e)); simpl; rewrite <- IH.
  - now rewrite (assoc_L (∪)).
  - apply set_eq. intros x. rewrite !elem_of_union. tauto.
Qed.

End PartitionerFacts.

(** Two results with the same three components are the same result. *)
Lemma partitioned_ext (p q : Partitioner.partitioned) :
  Partitioner.kept p = Partitioner.kept q ->
  Partitioner.cut p = Partitioner.cut q ->
  Partitioner.nodes p = Partitioner.nodes q -> p = q.
Proof. destruct p, q. simpl. now intros -> -> ->. Qed.

(** C2.  An entry is kept exactly when its weight is at least the
    threshold and cut exactly when it is below; no entry is both, every
    entry is one of the two, and the kept entries followed by the cut ones
    are a rearrangement of the input.  On the two-entry example of the
    specification with threshold 0.65, G9-G4 (0.87) is kept, G1-G4 (0.64)
    is cut and the nodes are G9, G4 and G1. *)
Theorem partition_splits_by_threshold
    (es : list Partitioner.wedge) (threshold : Q) :
  (forall e, In e (Partitioner.kept (Partitioner.partition es threshold)) <->
             In e es /\ threshold <= Partitioner.weight e) /\
  (forall e, In e (Partitioner.cut (Partitioner.partition es threshold)) <->
             In e es /\ Partitioner.weight e < threshold) /\
  (forall e, ~ (In e (Partitioner.kept (Partitioner.partition es threshold)) /\
                In e (Partitioner.cut (Partitioner.partition es threshold)))) /\
  (forall e, In e (Partitioner.kept (Partitioner.partition es threshold)) \/
             In e (Partitioner.cut (Partitioner.partition es threshold)) <->
             In e es) /\
  Permutation (Partitioner.kept (Partitioner.partition es threshold) ++
               Partitioner.cut (Partitioner.partition es threshold)) es /\
  Partitioner.partition
    [Partitioner.WEdge "G9" "G4" 0.87; Partitioner.WEdge "G1" "G4" 0.64] 0.65 =
  Partitioner.Partitioned
    [Partitioner.WEdge "G9" "G4" 0.87] [Partitioner.WEdge "G1" "G4" 0.64]
    {[ "G9"; "G4"; "G1" ]}%string.
Proof.
  assert (Hk : forall e,
    In e (Partitioner.kept (Partitioner.partition es threshold)) <->
    In e es /\ threshold <= Partitioner.weight e).
  { intros e. rewrite kept_filter, filter_In, above_iff. tauto. }
  assert (Hc : forall e,
    In e (Partitioner.cut (Partitioner.partition es threshold)) <->
    In e es /\ Partitioner.weight e < threshold).
  { intros e. rewrite cut_filter, filter_In, below_iff. tauto. }
  split; [exact Hk |]. split; [exact Hc |].
  split; [| split; [| split]].
  - intros e [H1 H2]. apply Hk in H1. apply Hc in H2. lra.
  - intros e. split.
    + intros [H | H]; [apply Hk in H | apply Hc in H]; tauto.
    + intros H.
      destruct (Qlt_le_dec (Partitioner.weight e) threshold).
      * right. apply Hc. tauto.
      * left. apply Hk. tauto.
  - rewrite kept_filter, cut_filter. apply split_permutation.
  - apply partitioned_ext.
    + vm_compute. reflexivity.
    + vm_compute. reflexivity.
    + rewrite nodes_endpoints. unfold Partitioner.endpoints. simpl.
      apply set_eq. intros x. rewrite !elem_of_union, !elem_of_singleton.
      rewrite elem_of_empty. tauto.
Qed.

(** C8.  The nodes of the result are the endpoints of all entries, which
    are the endpoints of the kept entries together with those of the cut
    ones; the node set is therefore the same at every threshold, and both
    endpoints of a cut entry are among the nodes. *)
Theorem nodes_are_all_endpoints
    (es : list Partitioner.wedge) (threshold : Q) :
  Partitioner.nodes (Partitioner.partition es threshold) =
    Partitioner.endpoints es /\
  Partitioner.nodes (Partitioner.partition es threshold) =
    Partitioner.endpoints
      (Partitioner.kept (Partitioner.partition es threshold)) ∪
    Partitioner.endpoints
      (Partitioner.cut (Partitioner.partition es threshold)) /\
  (forall threshold',
     Partitioner.nodes (Partitioner.partition es threshold') =
     Partitioner.nodes (Partitioner.partition es threshold)) /\
  (forall e,
     In e (Partitioner.cut (Partitioner.partition es threshold)) ->
     Partitioner.w_u e ∈ Partitioner.nodes (Partitioner.partition es threshold) /\
     Partitioner.w_v e ∈ Partitioner.nodes (Partitioner.partition es threshold)).
Proof.
  split; [apply nodes_endpoints |].
  split; [| split].
  - rewrite nodes_endpoints, kept_filter, cut_filter.
    symmetry. apply endpoints_split.
  - intros threshold'. now rewrite !nodes_endpoints.
  - intros e He. rewrite nodes_endpoints. apply endpoints_in.
    rewrite cut_filter in He. apply filter_In in He. tauto.
Qed.

(** In the car example at the default threshold 0.65 the entry G1-G4
    (0.64) is cut, and G1 and G4 are still nodes of the graph. *)
Lemma nodes_are_all_endpoints_witness :
  In (Partitioner.WEdge "G1" "G4" 0.64)
     (Partitioner.cut (Partitioner.partition Partitioner.edges 0.65)) /\
  ("G1"%string ∈
     Partitioner.nodes (Partitioner.partition Partitioner.edges 0.65) /\
   "G4"%string ∈
     Partitioner.nodes (Partitioner.partition Partitioner.edges 0.65)).
Proof.
  assert (H : In (Partitioner.WEdge "G1" "G4" 0.64)
     (Partitioner.cut (Partitioner.partition Partitioner.edges 0.65))).
  { vm_compute. tauto. }
  split; [exact H |].
  exact (proj2 (proj2 (proj2
    (nodes_are_all_endpoints Partitioner.edges 0.65))) _ H).
Defined.

(** ** Composition ratio calculator *)

(** C1, as the script has it.  [derive] makes no test and raises nothing:
    for every triple, whatever its sum and whether or not its members lie
    in [[0, 1]], it returns [1 - support - opposition - abstention].  On
    0.6, 0.5, 0.0 it returns a negative refusal: -0.1 over the rationals,
    -0.09999999999999998 in the binary64 arithmetic of the interpreter. *)
Theorem derive_never_raises (support opposition abstention : Q) :
  Composition.run_derive support opposition abstention =
    Returned (1 - support - opposition - abstention) /\
  (Composition.run_derive 0.6 0.5 0 = Returned (1 - 0.6 - 0.5 - 0) /\
   1 - 0.6 - 0.5 - 0 == -0.1) /\
  (Binary64.derive 0.6 0.5 0 = (-0x1.9999999999998p-4)%float /\
   PrimFloat.ltb (Binary64.derive 0.6 0.5 0) 0 = true).
Proof.
  split; [reflexivity |].
  split; [split; [reflexivity | qconst] |].
  split; reflexivity.
Qed.

(** C1 fails on the script: the inputs 0.6, 0.5, 0.0 sum to 1.1, and
    [derive] does not raise [InvalidCompositionError] on them. *)
Lemma derive_over_one_returns :
  ~ (1 < 0.6 + 0.5 + 0 ->
     Composition.run_derive 0.6 0.5 0 = Raised InvalidCompositionError).
Proof.
  intros H. assert (Hsum : 1 < 0.6 + 0.5 + 0) by qconst.
  specialize (H Hsum). discriminate H.
Qed.

(** What it returns there is the negative refusal -0.1. *)
Example derive_over_one_value :
  Composition.run_derive 0.6 0.5 0 = Returned (1 - 0.6 - 0.5 - 0) /\
  1 - 0.6 - 0.5 - 0 == -0.1.
Proof. split; [reflexivity | qconst]. Qed.

(** An input outside [[0, 1]] is accepted as well. *)
Example derive_negative_support :
  Composition.run_derive (-0.5) 0.2 0.1 = Returned (1 - (-0.5) - 0.2 - 0.1).
Proof. reflexivity. Qed.

(** C5, as the script has it.  Over the rationals [derive] is
    [1 - support - opposition - abstention], the four values sum to 1,
    [derive 0.5 0.2 0.1] is 0.2 and [derive 0.7 0.3 0] is 0.  The
    interpreter subtracts in binary64: there the two examples evaluate to
    0.19999999999999998 (one unit in the last place below the float 0.2)
    and to 2^-54, about 5.55e-17. *)
Theorem derive_refusal (support opposition abstention : Q) :
  Composition.derive support opposition abstention ==
    1 - support - opposition - abstention /\
  support + opposition + abstention +
    Composition.derive support opposition abstention == 1 /\
  (Composition.derive 0.5 0.2 0.1 == 0.2 /\
   Composition.derive 0.7 0.3 0 == 0) /\
  (Binary64.derive 0.5 0.2 0.1 = 0x1.9999999999999p-3%float /\
   PrimFloat.next_up (Binary64.derive 0.5 0.2 0.1) = 0.2%float /\
   Binary64.derive 0.7 0.3 0 = 0x1p-54%float).
Proof.
  split; [reflexivity |].
  split; [unfold Composition.derive; ring |].
  split; [split; qconst |].
  repeat split; reflexivity.
Qed.

(** C5 fails on the script: on the sliders' initial values 0.5, 0.2, 0.1
    the refusal the interpreter computes is not the float 0.2, and on
    0.7, 0.3, 0.0 it is not 0.0. *)
Lemma derive_binary64_not_exact :
  PrimFloat.eqb (Binary64.derive 0.5 0.2 0.1) 0.2 = false /\
  PrimFloat.eqb (Binary64.derive 0.7 0.3 0) 0 = false.
Proof. split; reflexivity. Qed.

(** In binary64 the four values of the first example do not sum to 1
    either. *)
Example binary64_sum_below_one :
  PrimFloat.eqb (0.5 + 0.2 + 0.1 + Binary64.derive 0.5 0.2 0.1)%float 1 = false.
Proof. reflexivity. Qed.

(** If each value does lie within the bounds handed to its slider,
    [0 <= support <= 1], [0 <= oppose <= 1 - support] and
    [0 <= abstain <= 1 - support - oppose], the hesitation
    [1 - support - oppose] and the refusal
    [1 - support - oppose - abstain] both lie in [[0, 1]]. *)
Theorem caps_keep_leftover_in_range (support oppose abstain : Q) :
  Composition.slider_value 0 1 support ->
  Composition.slider_value 0 (Composition.oppose_max support) oppose ->
  0 <= Composition.hesitation support oppose <= 1 /\
  (Composition.slider_value 0 (Composition.abstain_max support oppose) abstain ->
   0 <= Composition.derive support oppose abstain <= 1).
Proof.
  unfold Composition.slider_value, Composition.oppose_max,
    Composition.abstain_max, Composition.hesitation, Composition.derive.
  intros Hs Ho. split; [lra |]. intros Ha. lra.
Qed.

(** The sliders' initial values 0.5, 0.2, 0.1 are inside their bounds. *)
Lemma caps_keep_leftover_in_range_witness :
  Composition.slider_value 0 1 0.5 /\
  Composition.slider_value 0 (Composition.oppose_max 0.5) 0.2 /\
  Composition.slider_value 0 (Composition.abstain_max 0.5 0.2) 0.1 /\
  0 <= Composition.hesitation 0.5 0.2 <= 1 /\
  0 <= Composition.derive 0.5 0.2 0.1 <= 1.
Proof.
  assert (Hs : Composition.slider_value 0 1 0.5) by (split; qconst).
  assert (Ho : Composition.slider_value 0 (Composition.oppose_max 0.5) 0.2)
    by (split; qconst).
  assert (Ha : Composition.slider_value 0 (Composition.abstain_max 0.5 0.2) 0.1)
    by (split; qconst).
  destruct (caps_keep_leftover_in_range 0.5 0.2 0.1 Hs Ho) as [Hh Hr].
  repeat split; try assumption; apply (Hr Ha).
Defined.

(** The sliders do not establish those bounds: the initial values 0.2 and
    0.1 are fixed while the upper bounds shrink with the support, so once
    the support exceeds 0.8 the opposition slider is created with an
    initial value above its own upper bound. *)
Lemma oppose_initial_value_above_cap (support : Q) :
  0.8 < support ->
  ~ Composition.initial_value_in_range (Composition.oppose_slider support).
Proof.
  unfold Composition.initial_value_in_range, Composition.slider_value,
    Composition.oppose_slider, Composition.oppose_max. simpl.
  intros Hs [_ H]. lra.
Qed.

(** C10 fails on the script.  With the support slider at 0.9, inside its
    bounds, and the opposition and abstention sliders at their initial
    values 0.2 and 0.1, neither initial value is within the upper bound the
    script computes for it (0.1 and -0.1), the hesitation is -0.1 and the
    refusal is -0.2, negative in binary64 as well: the leftover is not in
    [[0, 1]]. *)
Theorem caps_not_enforced_at_support_09 :
  Composition.slider_value 0 1 0.9 /\
  ~ Composition.initial_value_in_range (Composition.oppose_slider 0.9) /\
  ~ Composition.initial_value_in_range
      (Composition.abstain_slider 0.9
         (Composition.value (Composition.oppose_slider 0.9))) /\
  (Composition.hesitation 0.9
     (Composition.value (Composition.oppose_slider 0.9)) == -0.1 /\
   Composition.derive 0.9
     (Composition.value (Composition.oppose_slider 0.9))
     (Composition.value (Composition.abstain_slider 0.9 0.2)) == -0.2) /\
  ~ 0 <= Composition.derive 0.9
           (Composition.value (Composition.oppose_slider 0.9))
           (Composition.value (Composition.abstain_slider 0.9 0.2)) /\
  (Binary64.derive 0.9 0.2 0.1 = (-0x1.999999999999bp-3)%float /\
   PrimFloat.ltb (Binary64.derive 0.9 0.2 0.1) 0 = true /\
   PrimFloat.ltb (Binary64.hesitation 0.9 0.2) 0 = true).
Proof.
  split; [split; qconst |].
  split; [apply oppose_initial_value_above_cap; qconst |].
  split.
  { unfold Composition.initial_value_in_range, Composition.slider_value.
    simpl. intros [_ H]. revert H. vm_compute.
    intros H. apply H. reflexivity. }
  split; [split; qconst |].
  split; [vm_compute; intros H; apply H; reflexivity |].
  repeat split; reflexivity.
Qed.

(** * Further properties of the script *)

(** ** Membership of a height (lines 47-59) *)

(** Case analysis on the segment of a height, with the value of [score]
    on it in affine form. *)
Ltac by_segment x :=
  let H := fresh "Hseg" in
  destruct (segment_of x) as [H | [H | [H | H]]];
  [ rewrite (score_below x H)
  | rewrite (score_low_ramp x H), ramp_low
  | rewrite (score_high_ramp x H), ramp_high
  | rewrite (score_above x H) ].

(** X1.  Between 160 and 190 the membership grows strictly: a taller person
    in that range is strictly more of a tall person. *)
Theorem score_strictly_increasing (x y : Q) :
  160 <= x -> x < y -> y <= 190 -> Scorer.score x < Scorer.score y.
Proof.
  intros Hx Hxy Hy. by_segment x; by_segment y; lra.
Qed.

Lemma score_strictly_increasing_witness :
  160 <= 179 /\ 179 < 181 /\ 181 <= 190 /\
  Scorer.score 179 < Scorer.score 181.
Proof.
  assert (H1 : 160 <= 179) by qconst.
  assert (H2 : 179 < 181) by qconst.
  assert (H3 : 181 <= 190) by qconst.
  repeat (split; [assumption |]).
  exact (score_strictly_increasing 179 181 H1 H2 H3).
Defined.

(** X2.  In exact arithmetic the membership has no jump: going up by
    [y - x] centimetres raises the exact value of the formula by at most
    [(y - x) / 25], across the breakpoints 160, 180 and 190 as well.  (The
    floats the interpreter computes can differ by a rounding error more,
    see X22.) *)
Theorem score_slope_bound (x y : Q) :
  x <= y ->
  Scorer.score y - Scorer.score x <= (1 # 25) * (y - x).
Proof.
  intros Hxy. by_segment x; by_segment y; lra.
Qed.

Lemma score_slope_bound_witness :
  179 <= 181 /\
  Scorer.score 181 - Scorer.score 179 <= (1 # 25) * (181 - 179).
Proof.
  assert (H : 179 <= 181) by qconst.
  split; [exact H | exact (score_slope_bound 179 181 H)].
Defined.

(** X3.  The membership is 0 exactly up to 160 cm (160 included) and 1
    exactly from 190 cm on. *)
Theorem score_extremes (x : Q) :
  (Scorer.score x == 0 <-> x <= 160) /\
  (Scorer.score x == 1 <-> 190 <= x).
Proof.
  split; split; by_segment x; intros; lra.
Qed.

(** X4.  On the ramps the value follows the comments of lines 53 and 55:
    below 180 cm it stays under 0.8, from 180 cm on it is at least 0.8,
    and it stays under 1 before 190 cm. *)
Theorem score_ramp_ranges (x : Q) :
  160 <= x < 190 ->
  (x < 180 -> Scorer.score x < 0.8) /\
  (180 <= x -> 0.8 <= Scorer.score x) /\
  0 <= Scorer.score x < 1.
Proof.
  intros [Hlo Hhi]. by_segment x; repeat split; intros; lra.
Qed.

Lemma score_ramp_ranges_witness :
  160 <= 185 < 190 /\
  (185 < 180 -> Scorer.score 185 < 0.8) /\
  (180 <= 185 -> 0.8 <= Scorer.score 185) /\
  0 <= Scorer.score 185 < 1.
Proof.
  assert (H : 160 <= 185 < 190) by (split; qconst).
  split; [exact H | exact (score_ramp_ranges 185 H)].
Defined.

(** The slider returns whole centimetres. *)
Lemma inject_Z_bounds (z a b : Z) :
  inject_Z a <= inject_Z z < inject_Z b -> (a <= z < b)%Z.
Proof.
  intros [H1 H2]. rewrite Zle_Qle, Zlt_Qlt. now split.
Qed.

(** X5.  At a whole number of centimetres the membership is a whole number
    of hundredths between 0 and 1, so the two decimals the page prints
    (line 58) lose nothing of the exact value. *)
Theorem score_integer_hundredths (z : Z) :
  exists k : Z, (0 <= k <= 100)%Z /\
    Scorer.score (inject_Z z) == inject_Z k / 100.
Proof.
  destruct (segment_of (inject_Z z)) as [H | [H | [H | H]]].
  - exists 0%Z. split; [lia |]. rewrite (score_below _ H). reflexivity.
  - exists (4 * (z - 160))%Z.
    pose proof (inject_Z_bounds z 160 180 H) as Hz. split; [lia |].
    rewrite (score_low_ramp _ H), ramp_low.
    unfold Z.sub. rewrite inject_Z_mult, inject_Z_plus.
    generalize (inject_Z z). intros q. cbv [inject_Z Z.opp]. field.
  - exists (80 + 2 * (z - 180))%Z.
    pose proof (inject_Z_bounds z 180 190 H) as Hz. split; [lia |].
    rewrite (score_high_ramp _ H), ramp_high.
    unfold Z.sub. rewrite inject_Z_plus, inject_Z_mult, inject_Z_plus.
    generalize (inject_Z z). intros q. cbv [inject_Z Z.opp]. field.
  - exists 100%Z. split; [lia |]. rewrite (score_above _ H). reflexivity.
Qed.

(** ** The interpreter's membership on the slider (lines 47-57) *)

Lemma slider_heights_spec (h : Z) :
  (140 <= h <= 220)%Z -> In h Binary64.slider_heights.
Proof.
  intros Hh. unfold Binary64.slider_heights.
  apply in_map_iff. exists (Z.to_nat (h - 140)). split; [lia |].
  apply in_seq. lia.
Qed.

Lemma binary64_score_close_on_slider :
  forallb (fun h =>
    Exact.within (1 # 4503599627370496) (Binary64.score h)
                 (Scorer.score (inject_Z h)))
    Binary64.slider_heights = true.
Proof. vm_compute. reflexivity. Qed.

(** X6.  For each height the slider of line 47 offers (140 to 220 cm) the
    float the interpreter computes is finite and within 2^-52 of the exact
    membership; with X5, its nearest hundredth is the exact value. *)
Theorem binary64_score_matches_exact (h : Z) :
  (140 <= h <= 220)%Z ->
  Exact.within (1 # 4503599627370496) (Binary64.score h)
               (Scorer.score (inject_Z h)) = true.
Proof.
  intros Hh.
  exact (proj1 (forallb_forall _ _) binary64_score_close_on_slider h
               (slider_heights_spec h Hh)).
Qed.

Lemma binary64_score_matches_exact_witness :
  (140 <= 175 <= 220)%Z /\
  Exact.within (1 # 4503599627370496) (Binary64.score 175)
               (Scorer.score (inject_Z 175)) = true.
Proof.
  assert (H : (140 <= 175 <= 220)%Z) by (split; discriminate).
  split; [exact H | exact (binary64_score_matches_exact 175 H)].
Defined.

(** ** The golden-rule check (lines 85-91) *)

Section ValidatorMore.

Import Validator.

Lemma min_le_l (a b : Q) : min a b <= a.
Proof. unfold min. destruct (Qlt_le_dec b a); lra. Qed.

Lemma min_le_r (a b : Q) : min a b <= b.
Proof. unfold min. destruct (Qlt_le_dec b a); lra. Qed.

Lemma min_glb (a b c : Q) : c <= a -> c <= b -> c <= min a b.
Proof. unfold min. destruct (Qlt_le_dec b a); intros; assumption. Qed.

Lemma min_monotone (a b a' b' : Q) :
  a <= a' -> b <= b' -> min a b <= min a' b'.
Proof.
  intros Ha Hb. apply min_glb.
  - pose proof (min_le_l a b). lra.
  - pose proof (min_le_r a b). lra.
Qed.

Lemma violates_false_iff (s : sliders) (e : edge) :
  violates s e = false <-> e_mu e <= bound s e.
Proof.
  unfold violates. destruct (Qlt_le_dec (bound s e) (e_mu e)).
  - split; [discriminate | lra].
  - tauto.
Qed.

Lemma filter_nil_iff {X : Type} (f : X -> bool) (l : list X) :
  List.filter f l = [] <-> Forall (fun x => f x = false) l.
Proof.
  induction l as [| x l IH]; simpl.
  - split; [constructor | reflexivity].
  - destruct (f x) eqn:E.
    + split; [discriminate |]. intros H. inversion H; congruence.
    + rewrite IH. split; [now constructor | intros H; now inversion H].
Qed.

Lemma validate_nil_iff (s : sliders) :
  validate s = [] <-> Forall (fun e => e_mu e <= bound s e) (edges s).
Proof.
  rewrite validate_filter. split.
  - intros H. apply map_eq_nil in H. apply filter_nil_iff in H.
    eapply List.Forall_impl; [| exact H].
    intros e He. now apply violates_false_iff.
  - intros H.
    assert (Hf : List.filter (violates s) (edges s) = []).
    { apply filter_nil_iff. eapply List.Forall_impl; [| exact H].
      intros e He. now apply violates_false_iff. }
    now rewrite Hf.
Qed.

End ValidatorMore.

(** X7.  The list of violations is empty exactly when every edge respects
    the golden rule: an empty result never hides a broken edge, and a
    strength equal to the bound is not a violation. *)
Theorem validate_empty_iff_valid (s : Validator.sliders) :
  Validator.validate s = [] <->
  Forall (fun e => Validator.e_mu e <= Validator.bound s e)
         (Validator.edges s).
Proof. apply validate_nil_iff. Qed.

(** X8.  Every reported violation is genuine: it belongs to one of the
    three edges, its strength exceeds its bound, and the bound is at most
    the existence value of either endpoint.  There are at most three
    violations and no edge is reported twice. *)
Theorem violations_are_genuine (s : Validator.sliders) :
  (length (Validator.validate s) <= 3)%nat /\
  NoDup (map Validator.v_edge (Validator.validate s)) /\
  forall v, In v (Validator.validate s) ->
    Validator.v_bound v < Validator.v_mu v /\
    exists e, In e (Validator.edges s) /\
      v = Validator.violation_of s e /\
      Validator.v_bound v <= Validator.sigma s (Validator.e_u e) /\
      Validator.v_bound v <= Validator.sigma s (Validator.e_v e).
Proof.
  rewrite validate_filter. split; [| split].
  - rewrite length_map.
    etransitivity; [apply filter_length_le | simpl; lia].
  - unfold Validator.edges. simpl.
    destruct (Validator.violates s _); destruct (Validator.violates s _);
      destruct (Validator.violates s _); simpl;
      apply (bool_decide_unpack _); vm_compute; reflexivity.
  - intros v Hv. apply in_map_iff in Hv. destruct Hv as [e [<- He]].
    apply filter_In in He. destruct He as [He Hviol].
    apply violates_iff in Hviol. split; [exact Hviol |].
    exists e. split; [exact He |]. split; [reflexivity |].
    simpl. unfold Validator.bound.
    split; [apply min_le_l | apply min_le_r].
Qed.

(** With A-B raised to 0.95 the message about A-B is genuine. *)
Lemma violations_are_genuine_witness :
  In (Validator.Violation "A-B" 0.95 0.8)
     (Validator.validate (Validator.Sliders 0.9 0.8 1 0.95 0.6 0.5)) /\
  0.8 < 0.95.
Proof.
  assert (H : In (Validator.Violation "A-B" 0.95 0.8)
     (Validator.validate (Validator.Sliders 0.9 0.8 1 0.95 0.6 0.5))).
  { left. reflexivity. }
  split; [exact H |].
  exact (proj1 (proj2 (proj2 (violations_are_genuine _)) _ H)).
Defined.

(** X9.  Validity survives weakening the edges and strengthening the
    vertices: from a setting with no violation, lowering edge strengths
    and raising existence values never produces one. *)
Theorem validity_preserved (s s' : Validator.sliders) :
  Validator.validate s = [] ->
  Validator.sigma_a s <= Validator.sigma_a s' ->
  Validator.sigma_b s <= Validator.sigma_b s' ->
  Validator.sigma_c s <= Validator.sigma_c s' ->
  Validator.mu_ab s' <= Validator.mu_ab s ->
  Validator.mu_bc s' <= Validator.mu_bc s ->
  Validator.mu_ac s' <= Validator.mu_ac s ->
  Validator.validate s' = [].
Proof.
  intros Hvalid Ha Hb Hc Hab Hbc Hac.
  apply validate_nil_iff in Hvalid. apply validate_nil_iff.
  unfold Validator.edges in *.
  inversion Hvalid as [| e1 l1 H1 Hrest1]; subst.
  inversion Hrest1 as [| e2 l2 H2 Hrest2]; subst.
  inversion Hrest2 as [| e3 l3 H3 _]; subst.
  unfold Validator.bound in *. simpl in *.
  pose proof (min_monotone _ _ _ _ Ha Hb).
  pose proof (min_monotone _ _ _ _ Hb Hc).
  pose proof (min_monotone _ _ _ _ Ha Hc).
  repeat constructor; unfold Validator.bound; simpl; lra.
Qed.

(** From the opening values, weakening B-C to 0.3 and raising B to 1. *)
Lemma validity_preserved_witness :
  Validator.validate (Validator.Sliders 0.9 0.8 1 0.7 0.6 0.5) = [] /\
  Validator.validate (Validator.Sliders 0.9 1 1 0.7 0.3 0.5) = [].
Proof.
  assert (H : Validator.validate (Validator.Sliders 0.9 0.8 1 0.7 0.6 0.5)
              = []) by reflexivity.
  split; [exact H |].
  apply (validity_preserved _ (Validator.Sliders 0.9 1 1 0.7 0.3 0.5) H);
    qconst.
Defined.

(** X10.  [min] as the script calls it is the minimum of its two
    arguments: below both, equal to one of them, the first one on a tie,
    and the same number whichever the order, so that the bound of an edge
    does not depend on the orientation of the edge. *)
Theorem python_min_is_minimum (a b : Q) :
  Validator.min a b <= a /\
  Validator.min a b <= b /\
  (Validator.min a b = a \/ Validator.min a b = b) /\
  (a <= b -> Validator.min a b = a) /\
  Validator.min a b == Validator.min b a.
Proof.
  split; [apply min_le_l |]. split; [apply min_le_r |].
  unfold Validator.min.
  destruct (Qlt_le_dec b a) as [Hlt | Hle];
    destruct (Qlt_le_dec a b) as [Hlt' | Hle'];
    repeat split; try tauto; try reflexivity; intros; lra.
Qed.

Lemma python_min_is_minimum_witness :
  0.8 <= 0.8 /\ Validator.min 0.8 0.8 = 0.8.
Proof.
  assert (H : 0.8 <= 0.8) by qconst.
  split; [exact H |].
  exact (proj1 (proj2 (proj2 (proj2 (python_min_is_minimum 0.8 0.8)))) H).
Defined.

(** ** The threshold loop (lines 227-242) *)

Section PartitionerMore.

Import Partitioner.

Lemma filter_length_impl {X : Type} (f g : X -> bool) (l : list X) :
  (forall x, f x = true -> g x = true) ->
  (length (List.filter f l) <= length (List.filter g l))%nat.
Proof.
  intros Hfg. induction l as [| x l IH]; simpl; [lia |].
  destruct (f x) eqn:Ef.
  - rewrite (Hfg x Ef). simpl. lia.
  - destruct (g x); simpl; lia.
Qed.

Lemma filter_all {X : Type} (f : X -> bool) (l : list X) :
  (forall x, In x l -> f x = true) -> List.filter f l = l.
Proof.
  induction l as [| x l IH]; simpl; intros H; [reflexivity |].
  rewrite (H x) by now left. f_equal. apply IH. intros y Hy. apply H.
  now right.
Qed.

Lemma filter_none {X : Type} (f : X -> bool) (l : list X) :
  (forall x, In x l -> f x = false) -> List.filter f l = [].
Proof.
  induction l as [| x l IH]; simpl; intros H; [reflexivity |].
  rewrite (H x) by now left. apply IH. intros y Hy. apply H. now right.
Qed.

Lemma below_negb (threshold : Q) (e : wedge) :
  below threshold e = negb (above threshold e).
Proof. reflexivity. Qed.

Lemma emitted_length (threshold : Q) (es : list wedge) :
  length (flat_map (emitted threshold) es) =
  (length (List.filter (above threshold) es) +
   2 * length (List.filter (below threshold) es))%nat.
Proof.
  induction es as [| e es IH]; [reflexivity |].
  simpl flat_map. rewrite length_app, IH. simpl List.filter.
  unfold emitted, above, below.
  destruct (Qle_bool threshold (weight e)); simpl length; lia.
Qed.

End PartitionerMore.

(** X11.  Raising the threshold only cuts more: whatever is kept at the
    higher threshold is kept at the lower one, whatever is cut at the lower
    one is cut at the higher one, and the number of kept edges does not
    grow. *)
Theorem raising_threshold_only_cuts
    (es : list Partitioner.wedge) (t1 t2 : Q) :
  t1 <= t2 ->
  incl (Partitioner.kept (Partitioner.partition es t2))
       (Partitioner.kept (Partitioner.partition es t1)) /\
  incl (Partitioner.cut (Partitioner.partition es t1))
       (Partitioner.cut (Partitioner.partition es t2)) /\
  (length (Partitioner.kept (Partitioner.partition es t2)) <=
   length (Partitioner.kept (Partitioner.partition es t1)))%nat.
Proof.
  intros Ht. rewrite !kept_filter, !cut_filter.
  split; [| split].
  - intros e He. apply filter_In in He. apply filter_In.
    rewrite above_iff in *. split; [tauto | lra].
  - intros e He. apply filter_In in He. apply filter_In.
    rewrite below_iff in *. split; [tauto | lra].
  - apply filter_length_impl. intros e He.
    rewrite above_iff in *. lra.
Qed.

Lemma raising_threshold_only_cuts_witness :
  0.65 <= 0.8 /\
  (length (Partitioner.kept
             (Partitioner.partition Partitioner.edges 0.8)) <=
   length (Partitioner.kept
             (Partitioner.partition Partitioner.edges 0.65)))%nat.
Proof.
  assert (H : 0.65 <= 0.8) by qconst.
  split; [exact H |].
  exact (proj2 (proj2 (raising_threshold_only_cuts Partitioner.edges _ _ H))).
Defined.

(** X12.  A threshold at or below every weight cuts nothing: every entry
    is kept, in order, and the loop adds to the graph it is started on one
    edge statement per entry and no node statement. *)
Theorem low_threshold_keeps_everything
    (es : list Partitioner.wedge) (threshold : Q)
    (st : Partitioner.loop_state) :
  (forall e, In e es -> threshold <= Partitioner.weight e) ->
  Partitioner.kept (Partitioner.partition es threshold) = es /\
  Partitioner.cut (Partitioner.partition es threshold) = [] /\
  Partitioner.body
    (Partitioner.mst_dot (Partitioner.mst_loop threshold es st)) =
  Partitioner.body (Partitioner.mst_dot st) ++
  map (fun e => Partitioner.edge_stmt (Partitioner.w_u e)
                  (Partitioner.w_v e) (Partitioner.weight e)) es.
Proof.
  intros Hall. rewrite kept_filter, cut_filter, mst_loop_body.
  split; [| split].
  - apply filter_all. intros e He. apply above_iff. now apply Hall.
  - apply filter_none. intros e He. rewrite below_negb.
    apply negb_false_iff, above_iff. now apply Hall.
  - f_equal. induction es as [| e es IH]; [reflexivity |].
    simpl. rewrite IH by (intros e' He'; apply Hall; now right).
    unfold Partitioner.emitted.
    assert (Hk : Qle_bool threshold (Partitioner.weight e) = true).
    { apply Qle_bool_iff, Hall. now left. }
    now rewrite Hk.
Qed.

Lemma low_threshold_keeps_everything_witness :
  (forall e, In e Partitioner.edges -> 0.5 <= Partitioner.weight e) /\
  Partitioner.cut (Partitioner.partition Partitioner.edges 0.5) = [].
Proof.
  assert (H : forall e, In e Partitioner.edges ->
                        0.5 <= Partitioner.weight e).
  { intros e He. simpl in He.
    repeat (destruct He as [<- | He]; [qconst |]). destruct He. }
  split; [exact H |].
  exact (proj1 (proj2 (low_threshold_keeps_everything _ _
    {| Partitioner.mst_dot := Partitioner.styled_graph;
       Partitioner.cut_so_far := [] |} H))).
Defined.

(** X13.  A threshold above every weight cuts everything: no edge is
    drawn, the loop adds to the graph it is started on the two node
    statements of each entry and no edge statement, and all endpoints are
    still nodes of the graph. *)
Theorem high_threshold_cuts_everything
    (es : list Partitioner.wedge) (threshold : Q)
    (st : Partitioner.loop_state) :
  (forall e, In e es -> Partitioner.weight e < threshold) ->
  Partitioner.kept (Partitioner.partition es threshold) = [] /\
  Partitioner.cut (Partitioner.partition es threshold) = es /\
  Partitioner.body
    (Partitioner.mst_dot (Partitioner.mst_loop threshold es st)) =
  Partitioner.body (Partitioner.mst_dot st) ++
  flat_map (fun e => [Partitioner.node_stmt (Partitioner.w_u e);
                      Partitioner.node_stmt (Partitioner.w_v e)]) es /\
  Partitioner.nodes (Partitioner.partition es threshold) =
    Partitioner.endpoints es.
Proof.
  intros Hall. rewrite kept_filter, cut_filter, mst_loop_body.
  split; [| split; [| split]].
  - apply filter_none. intros e He.
    destruct (Partitioner.above threshold e) eqn:E; [| reflexivity].
    apply above_iff in E. specialize (Hall e He). lra.
  - apply filter_all. intros e He. apply below_iff. now apply Hall.
  - f_equal. induction es as [| e es IH]; [reflexivity |].
    simpl. rewrite IH by (intros e' He'; apply Hall; now right).
    unfold Partitioner.emitted.
    assert (Hk : Qle_bool threshold (Partitioner.weight e) = false).
    { destruct (Qle_bool threshold (Partitioner.weight e)) eqn:E;
        [| reflexivity].
      apply Qle_bool_iff in E.
      assert (Partitioner.weight e < threshold) by (apply Hall; now left).
      lra. }
    now rewrite Hk.
  - apply nodes_endpoints.
Qed.

Lemma high_threshold_cuts_everything_witness :
  (forall e, In e Partitioner.edges -> Partitioner.weight e < 0.9) /\
  Partitioner.kept (Partitioner.partition Partitioner.edges 0.9) = [].
Proof.
  assert (H : forall e, In e Partitioner.edges ->
                        Partitioner.weight e < 0.9).
  { intros e He. simpl in He.
    repeat (destruct He as [<- | He]; [qconst |]). destruct He. }
  split; [exact H |].
  exact (proj1 (high_threshold_cuts_everything _ _
    {| Partitioner.mst_dot := Partitioner.styled_graph;
       Partitioner.cut_so_far := [] |} H)).
Defined.

(** X14.  The loop only appends: started on any graph it leaves the
    statements already there in front, and adds for each entry, in
    dictionary order, either its edge statement or its two node
    statements; so the graph grows by one statement per kept entry and two
    per cut one, and the kept and the cut entries come out in dictionary
    order. *)
Theorem loop_appends_in_order
    (es : list Partitioner.wedge) (threshold : Q)
    (st : Partitioner.loop_state) :
  Partitioner.body
    (Partitioner.mst_dot (Partitioner.mst_loop threshold es st)) =
    Partitioner.body (Partitioner.mst_dot st) ++
    flat_map (Partitioner.emitted threshold) es /\
  (length (Partitioner.body
             (Partitioner.mst_dot (Partitioner.mst_loop threshold es st))) =
   length (Partitioner.body (Partitioner.mst_dot st)) +
   length (Partitioner.kept (Partitioner.partition es threshold)) +
   2 * length (Partitioner.cut (Partitioner.partition es threshold)))%nat /\
  Partitioner.kept (Partitioner.partition es threshold) =
    List.filter (Partitioner.above threshold) es /\
  Partitioner.cut (Partitioner.partition es threshold) =
    List.filter (Partitioner.below threshold) es.
Proof.
  rewrite mst_loop_body, kept_filter, cut_filter.
  split; [reflexivity |]. split; [| split; reflexivity].
  rewrite length_app, emitted_length. lia.
Qed.

(** X15.  Partitioning a dictionary built from two parts is partitioning
    the parts: the kept and the cut lists are the concatenations and the
    node set is the union. *)
Theorem partition_of_concatenation
    (es1 es2 : list Partitioner.wedge) (threshold : Q) :
  Partitioner.kept (Partitioner.partition (es1 ++ es2) threshold) =
    Partitioner.kept (Partitioner.partition es1 threshold) ++
    Partitioner.kept (Partitioner.partition es2 threshold) /\
  Partitioner.cut (Partitioner.partition (es1 ++ es2) threshold) =
    Partitioner.cut (Partitioner.partition es1 threshold) ++
    Partitioner.cut (Partitioner.partition es2 threshold) /\
  Partitioner.nodes (Partitioner.partition (es1 ++ es2) threshold) =
    Partitioner.nodes (Partitioner.partition es1 threshold) ∪
    Partitioner.nodes (Partitioner.partition es2 threshold).
Proof.
  rewrite !kept_filter, !cut_filter, !nodes_endpoints, !List.filter_app.
  split; [reflexivity |]. split; [reflexivity |].
  unfold Partitioner.endpoints.
  induction es1 as [| e es1 IH]; simpl.
  - now rewrite (left_id_L ∅ (∪)).
  - now rewrite IH, (assoc_L (∪)).
Qed.

(** X16.  In the car example all ten cars are on the chart at every
    threshold; a threshold up to 0.64 cuts nothing and a threshold above
    0.87 cuts every link.  The slider of line 221 (0.5 to 0.9) reaches both
    ends. *)
Theorem car_example_thresholds (threshold : Q) :
  Partitioner.nodes (Partitioner.partition Partitioner.edges threshold) =
    {[ "G1"; "G2"; "G3"; "G4"; "G5"; "G6"; "G7"; "G8"; "G9"; "G10" ]}%string /\
  (threshold <= 0.64 ->
   Partitioner.cut (Partitioner.partition Partitioner.edges threshold) = []) /\
  (0.87 < threshold ->
   Partitioner.kept (Partitioner.partition Partitioner.edges threshold) = []).
Proof.
  split; [| split].
  - rewrite nodes_endpoints. unfold Partitioner.endpoints. simpl.
    apply set_eq. intros x.
    rewrite !elem_of_union, !elem_of_singleton, elem_of_empty. tauto.
  - intros Ht. rewrite cut_filter. apply filter_none.
    intros e He. rewrite below_negb. apply negb_false_iff, above_iff.
    simpl in He.
    repeat (destruct He as [<- | He]; [simpl; lra |]). destruct He.
  - intros Ht. rewrite kept_filter. apply filter_none.
    intros e He.
    destruct (Partitioner.above threshold e) eqn:E; [| reflexivity].
    apply above_iff in E. simpl in He.
    repeat (destruct He as [<- | He]; [simpl in E; lra |]). destruct He.
Qed.

Lemma car_example_thresholds_witness :
  0.87 < 0.9 /\
  Partitioner.kept (Partitioner.partition Partitioner.edges 0.9) = [].
Proof.
  assert (H : 0.87 < 0.9) by qconst.
  split; [exact H |].
  exact (proj2 (proj2 (car_example_thresholds 0.9)) H).
Defined.

(** ** Hesitation and refusal (lines 170-173 and 182-187) *)

(** X17.  With each slider inside its bounds, the upper bounds handed to
    the later sliders are never negative, so no slider gets an empty range,
    and every degree is at most 1 with the three inputs summing to at most
    1. *)
Theorem slider_caps_are_sound (support oppose abstain : Q) :
  Composition.slider_value 0 1 support ->
  Composition.slider_value 0 (Composition.oppose_max support) oppose ->
  Composition.slider_value 0 (Composition.abstain_max support oppose)
    abstain ->
  0 <= Composition.oppose_max support /\
  0 <= Composition.abstain_max support oppose /\
  oppose <= 1 /\ abstain <= 1 /\
  support + oppose + abstain <= 1.
Proof.
  unfold Composition.slider_value, Composition.oppose_max,
    Composition.abstain_max.
  intros Hs Ho Ha. repeat split; lra.
Qed.

Lemma slider_caps_are_sound_witness :
  Composition.slider_value 0 1 0.5 /\
  Composition.slider_value 0 (Composition.oppose_max 0.5) 0.2 /\
  Composition.slider_value 0 (Composition.abstain_max 0.5 0.2) 0.1 /\
  0.5 + 0.2 + 0.1 <= 1.
Proof.
  assert (Hs : Composition.slider_value 0 1 0.5) by (split; qconst).
  assert (Ho : Composition.slider_value 0 (Composition.oppose_max 0.5) 0.2)
    by (split; qconst).
  assert (Ha : Composition.slider_value 0 (Composition.abstain_max 0.5 0.2) 0.1)
    by (split; qconst).
  repeat (split; [assumption |]).
  exact (proj2 (proj2 (proj2 (proj2
    (slider_caps_are_sound 0.5 0.2 0.1 Hs Ho Ha))))).
Defined.

(** X18.  In exact arithmetic the picture fuzzy model splits the
    hesitation of the intuitionistic one: hesitation is abstention plus
    refusal; the refusal is what the abstention slider leaves of its
    range, so it is 0 exactly when that slider is at its upper bound, and
    with no abstention it is the hesitation itself.  In the binary64
    arithmetic of the interpreter the refusal is still the float
    [abstain_max - abstain] (the same subtractions), but the sum holds only
    up to rounding: at support 0, oppose 0.08, abstain 0.06 the hesitation
    is 0.92 and abstention plus refusal is 0.9200000000000002. *)
Theorem refusal_splits_hesitation (support oppose abstain : Q) :
  (Composition.hesitation support oppose ==
     abstain + Composition.derive support oppose abstain /\
   Composition.derive support oppose abstain ==
     Composition.abstain_max support oppose - abstain /\
   (Composition.derive support oppose abstain == 0 <->
    abstain == Composition.abstain_max support oppose) /\
   Composition.derive support oppose 0 ==
     Composition.hesitation support oppose) /\
  (forall s o a : float,
     Binary64.derive s o a = (Binary64.abstain_max s o - a)%float) /\
  (Binary64.hesitation 0 0.08 = 0.92%float /\
   (0.06 + Binary64.derive 0 0.08 0.06)%float = 0x1.d70a3d70a3d72p-1%float /\
   PrimFloat.eqb (0.06 + Binary64.derive 0 0.08 0.06)
                 (Binary64.hesitation 0 0.08) = false).
Proof.
  split; [| split].
  - unfold Composition.hesitation, Composition.derive,
      Composition.abstain_max.
    split; [ring |]. split; [ring |]. split; [| ring].
    split; intros H; lra.
  - intros s o a. reflexivity.
  - split; [reflexivity |]. split; reflexivity.
Qed.

(** ** What the page shows (lines 93-113, 221-246 and 264-269) *)

Section ScriptFacts.

Import Script.

Lemma filter_warning_map (vs : list Validator.violation) :
  List.filter is_warning (map warning vs) = map warning vs.
Proof. induction vs as [| v vs IH]; simpl; [reflexivity | now rewrite IH]. Qed.

Lemma filter_chart_map (vs : list Validator.violation) :
  List.filter is_chart (map warning vs) = [].
Proof. induction vs as [| v vs IH]; simpl; [reflexivity | exact IH]. Qed.

Lemma filter_instructions_map (vs : list Validator.violation) :
  List.filter is_instructions (map warning vs) = [].
Proof. induction vs as [| v vs IH]; simpl; [reflexivity | exact IH]. Qed.

Lemma success_not_in_warnings (vs : list Validator.violation) :
  ~ In success_valid (map warning vs).
Proof.
  intros H. apply in_map_iff in H. destruct H as [v [Hv _]]. discriminate Hv.
Qed.

End ScriptFacts.

(** X19.  With graphviz installed the column under the chart shows the
    success message exactly when every edge respects the golden rule, and
    otherwise one warning per violation, in order, and no success message.
    Without graphviz the column is the installation panel alone: the
    violations are computed but never shown. *)
Theorem graph_column_messages (s : Validator.sliders) :
  (In Script.success_valid (Script.graph_column true s) <->
   Forall (fun e => Validator.e_mu e <= Validator.bound s e)
          (Validator.edges s)) /\
  List.filter Script.is_warning (Script.graph_column true s) =
    map Script.warning (Validator.validate s) /\
  Script.graph_column false s = [Script.installation_instructions].
Proof.
  split; [| split; [| reflexivity]].
  - rewrite <- validate_nil_iff. unfold Script.graph_column.
    destruct (Validator.validate s) as [| v vs] eqn:E.
    + split; [reflexivity |]. intros _. right. now left.
    + split; [| discriminate]. intros [H | H]; [discriminate H |].
      exfalso. exact (success_not_in_warnings (v :: vs) H).
  - unfold Script.graph_column.
    destruct (Validator.validate s) as [| v vs] eqn:E; [reflexivity |].
    cbn [List.filter Script.is_warning].
    apply (filter_warning_map (v :: vs)).
Qed.

(** X20.  Whatever the sidebar selection and the widget values, a run
    shows exactly one chart when graphviz is installed and no installation
    panel, and exactly one installation panel and no chart when it is
    not. *)
Theorem one_chart_or_one_panel
    (selection : string) (installed : bool) (w : Script.widgets) :
  length (List.filter Script.is_chart (Script.main selection installed w)) =
    (if installed then 1 else 0)%nat /\
  length (List.filter Script.is_instructions
            (Script.main selection installed w)) =
    (if installed then 0 else 1)%nat.
Proof.
  unfold Script.main.
  destruct (String.eqb selection "Fuzzy Graph Theory").
  - unfold Script.render_fuzzy_graph_theory, Script.graph_column.
    destruct installed; [| split; reflexivity].
    destruct (Validator.validate (Script.graph w)) as [| v vs];
      [split; reflexivity |].
    cbn [app List.filter Script.is_chart Script.is_instructions].
    rewrite (filter_chart_map (v :: vs)),
      (filter_instructions_map (v :: vs)).
    split; reflexivity.
  - destruct installed; split; reflexivity.
Qed.

(** X21.  The three checks only append to the list they are given: the
    messages already in it stay in front, followed by those [validate]
    reports.  Run twice on the same list they would report every violation
    twice; the new list of line 85 is what prevents that. *)
Theorem checks_only_append
    (s : Validator.sliders) (violations : list Validator.violation) :
  Validator.golden_rule s violations =
    violations ++ Validator.validate s /\
  Validator.golden_rule s (Validator.golden_rule s violations) =
    violations ++ Validator.validate s ++ Validator.validate s.
Proof.
  split; [apply golden_rule_app |].
  now rewrite !golden_rule_app, <- app_assoc.
Qed.

(** ** The interpreter's membership from one centimetre to the next *)

Lemma binary64_score_rise_on_slider :
  forallb (fun h =>
    Exact.rise_at_most ((1 # 25) + (1 # 2251799813685248))
      (Binary64.score h) (Binary64.score (h + 1)))
    Binary64.slider_heights = true.
Proof. vm_compute. reflexivity. Qed.

(** X22.  On the heights the slider of line 47 offers, the float the
    interpreter computes rises from one centimetre to the next by at most
    1/25 plus 2^-51: the slope bound of X2 up to rounding. *)
Theorem binary64_score_rise (h : Z) :
  (140 <= h <= 220)%Z ->
  Exact.rise_at_most ((1 # 25) + (1 # 2251799813685248))
    (Binary64.score h) (Binary64.score (h + 1)) = true.
Proof.
  intros Hh.
  exact (proj1 (forallb_forall _ _) binary64_score_rise_on_slider h
               (slider_heights_spec h Hh)).
Qed.

Lemma binary64_score_rise_witness :
  (140 <= 174 <= 220)%Z /\
  Exact.rise_at_most ((1 # 25) + (1 # 2251799813685248))
    (Binary64.score 174) (Binary64.score (174 + 1)) = true.
Proof.
  assert (H : (140 <= 174 <= 220)%Z) by (split; discriminate).
  split; [exact H | exact (binary64_score_rise 174 H)].
Defined.
